(** * PostProcessor (01/main.js): frame-synchronised canvas repaint

    A shallow embedding of the [PostProcessor] class of [01/main.js]
    together with the small part of the browser platform it drives: the
    event-listener list of the [<video>] element, its list of video frame
    request callbacks, and the [<canvas>] with its 2D context.

    JavaScript is single threaded: the constructor, the handlers and
    [destroy] each run to completion.  They are modelled as computations in
    a state-and-exception monad over one [World]. *)

From Stdlib Require Import List String NArith ZArith.
Import ListNotations.
Local Open Scope string_scope.
Local Open Scope list_scope.

(** ** Values *)

(** A reference-typed slot of the program ([video], [canvas], [this.ctx]...):
    not yet assigned, [null], or a reference to the one object of its type
    on the page. *)
Inductive ref : Type := undefined | null | obj.

(** The two methods whose function objects are handed to the platform. *)
Inductive Method : Type := m_resize | m_processFrame.

(** Function objects, compared by identity.  [this.resize] evaluates to the
    method found on the prototype; every evaluation of
    [this.resize.bind(this)] allocates a new function object, told apart
    here by its allocation number. *)
Inductive Fn : Type :=
| Proto (m : Method)
| Bound (id : nat) (m : Method).

Definition Method_eqb (a b : Method) : bool :=
  match a, b with
  | m_resize, m_resize | m_processFrame, m_processFrame => true
  | _, _ => false
  end.

Definition Fn_eqb (f g : Fn) : bool :=
  match f, g with
  | Proto a, Proto b => Method_eqb a b
  | Bound i a, Bound j b => Nat.eqb i j && Method_eqb a b
  | _, _ => false
  end.

(** The picture a video currently shows; opaque. *)
Definition Frame : Type := nat.

(** One [drawImage(video, dx, dy)]: the frame copied, the destination
    corner, and the filter of the context at the time of the call. *)
Record Blit : Type := mkBlit {
  source : Frame;
  dx : Z;
  dy : Z;
  through : string
}.

(** ** The platform objects *)

Record HTMLVideoElement : Type := mkVideo {
  videoWidth : N;
  videoHeight : N;
  currentFrame : Frame;
  (** event listener list, in registration order: (type, callback) *)
  listeners : list (string * Fn);
  (** list of video frame request callbacks: (handle, callback) *)
  frameRequests : list (N * Fn);
  (** the last callback identifier handed out *)
  lastHandle : N
}.

Inductive ContextMode : Type := mode_none | mode_2d | mode_other.

Record HTMLCanvasElement : Type := mkCanvas {
  width : N;
  height : N;
  contextMode : ContextMode;
  (** [filter] of the 2D context *)
  filter : string;
  (** what is painted on the bitmap since it was last cleared, newest first *)
  bitmap : list Blit;
  (** every [drawImage] ever performed on the context, newest first *)
  blits : list Blit
}.

(** The instance under construction or in use ([this]).  [None] is
    [undefined]. *)
Record PostProcessor : Type := mkPP {
  destroyed : option bool;
  video : ref;
  canvas : ref;
  ctx : ref;
  callback : option N
}.

Record World : Type := mkWorld {
  videoEl : HTMLVideoElement;
  canvasEl : HTMLCanvasElement;
  self : PostProcessor;
  (** allocation counter of bound function objects *)
  nextBound : nat
}.

(** ** Computations that read and write the world and may throw *)

Inductive Error : Type := TypeError.

Inductive Outcome (A : Type) : Type :=
| Return (a : A) (w : World)
| Throw (e : Error) (w : World).
Arguments Return {A} a w.
Arguments Throw {A} e w.

Definition M (A : Type) : Type := World -> Outcome A.

Definition ret {A} (a : A) : M A := fun w => Return a w.
Definition throw {A} (e : Error) : M A := fun w => Throw e w.
Definition bind {A B} (m : M A) (k : A -> M B) : M B :=
  fun w => match m w with
           | Return a w' => k a w'
           | Throw e w' => Throw e w'
           end.

Declare Scope js_scope.
Delimit Scope js_scope with js.
Notation "x <- m ;; k" := (bind m (fun x => k))
  (at level 61, m at next level, right associativity) : js_scope.
Notation "m ;; k" := (bind m (fun _ => k))
  (at level 61, right associativity) : js_scope.
Local Open Scope js_scope.

(** The world a computation leaves behind, however it ends. *)
Definition state_of {A} (o : Outcome A) : World :=
  match o with Return _ w => w | Throw _ w => w end.

Definition gets {A} (f : World -> A) : M A := fun w => Return (f w) w.
Definition modify (f : World -> World) : M unit := fun w => Return tt (f w).

Definition on_video (f : HTMLVideoElement -> HTMLVideoElement) : M unit :=
  modify (fun w => mkWorld (f (videoEl w)) (canvasEl w) (self w) (nextBound w)).
Definition on_canvas (f : HTMLCanvasElement -> HTMLCanvasElement) : M unit :=
  modify (fun w => mkWorld (videoEl w) (f (canvasEl w)) (self w) (nextBound w)).
Definition on_self (f : PostProcessor -> PostProcessor) : M unit :=
  modify (fun w => mkWorld (videoEl w) (canvasEl w) (f (self w)) (nextBound w)).

(** Reading a property of, or calling a method on, [r]: a [TypeError] when
    [r] is [null] or [undefined]. *)
Definition member (r : ref) : M unit :=
  match r with
  | obj => ret tt
  | null | undefined => throw TypeError
  end.

(** [this.m.bind(this)]: a function object that did not exist before. *)
Definition bind_this (m : Method) : M Fn :=
  fun w => Return (Bound (nextBound w) m)
             (mkWorld (videoEl w) (canvasEl w) (self w) (S (nextBound w))).

(** ** Platform operations *)

Definition listener_eqb (a b : string * Fn) : bool :=
  String.eqb (fst a) (fst b) && Fn_eqb (snd a) (snd b).

(** [EventTarget.addEventListener]: appended unless the same type and
    callback are already listed. *)
Definition addEventListener (type : string) (f : Fn) : M unit :=
  on_video (fun v =>
    if existsb (listener_eqb (type, f)) (listeners v) then v
    else mkVideo (videoWidth v) (videoHeight v) (currentFrame v)
                 (listeners v ++ [(type, f)]) (frameRequests v) (lastHandle v)).

Fixpoint remove_listener (l : string * Fn) (ls : list (string * Fn))
  : list (string * Fn) :=
  match ls with
  | [] => []
  | x :: rest => if listener_eqb l x then rest else x :: remove_listener l rest
  end.

(** [EventTarget.removeEventListener]: removes the entry with this type and
    this very callback; nothing happens when there is none. *)
Definition removeEventListener (type : string) (f : Fn) : M unit :=
  on_video (fun v =>
    mkVideo (videoWidth v) (videoHeight v) (currentFrame v)
            (remove_listener (type, f) (listeners v))
            (frameRequests v) (lastHandle v)).

(** [HTMLVideoElement.requestVideoFrameCallback]: a new identifier, queued
    with the callback. *)
Definition requestVideoFrameCallback (f : Fn) : M N :=
  fun w =>
    let v := videoEl w in
    let h := N.succ (lastHandle v) in
    Return h
      (mkWorld (mkVideo (videoWidth v) (videoHeight v) (currentFrame v)
                        (listeners v) (frameRequests v ++ [(h, f)]) h)
               (canvasEl w) (self w) (nextBound w)).

(** [HTMLVideoElement.cancelVideoFrameCallback]: drops the entry with this
    handle, if any.  [undefined] converts to the handle 0, which is never
    handed out. *)
Definition cancelVideoFrameCallback (h : option N) : M unit :=
  let n := match h with Some n => n | None => 0%N end in
  on_video (fun v =>
    mkVideo (videoWidth v) (videoHeight v) (currentFrame v) (listeners v)
            (List.filter (fun e => negb (N.eqb (fst e) n)) (frameRequests v))
            (lastHandle v)).

(** [canvas.getContext('2d')]: the 2D context, or [null] when the canvas
    is already bound to a context of another kind. *)
Definition getContext2d : M ref :=
  fun w =>
    let c := canvasEl w in
    match contextMode c with
    | mode_other => Return null w
    | _ => Return obj
             (mkWorld (videoEl w)
                      (mkCanvas (width c) (height c) mode_2d (filter c)
                                (bitmap c) (blits c))
                      (self w) (nextBound w))
    end.

(** Writing [canvas.width]: besides the new width, the bitmap is cleared
    and the context goes back to its default state, whose filter is
    ["none"]. *)
Definition set_width (n : N) : M unit :=
  on_canvas (fun c => mkCanvas n (height c) (contextMode c) "none" [] (blits c)).

Definition set_height (n : N) : M unit :=
  on_canvas (fun c => mkCanvas (width c) n (contextMode c) "none" [] (blits c)).

(** Writing [ctx.filter] with a well-formed filter list. *)
Definition set_filter (s : string) : M unit :=
  on_canvas (fun c =>
    mkCanvas (width c) (height c) (contextMode c) s (bitmap c) (blits c)).

(** [ctx.drawImage(image, x, y)] with the video as image: one copy of the
    frame the video shows.  A [null] image is a [TypeError]. *)
Definition drawImage (image : ref) (x y : Z) : M unit :=
  member image ;;
  f <- gets (fun w => currentFrame (videoEl w)) ;;
  on_canvas (fun c =>
    let b := mkBlit f x y (filter c) in
    mkCanvas (width c) (height c) (contextMode c) (filter c)
             (b :: bitmap c) (b :: blits c)).

(** ** The class *)

Module PostProcessor.

(** The object [new] hands to the constructor: no own property yet. *)
Definition blank : PostProcessor := mkPP None undefined undefined undefined None.

Definition set_destroyed (b : bool) : M unit :=
  on_self (fun p => mkPP (Some b) (video p) (canvas p) (ctx p) (callback p)).
Definition set_video (r : ref) : M unit :=
  on_self (fun p => mkPP (destroyed p) r (canvas p) (ctx p) (callback p)).
Definition set_canvas (r : ref) : M unit :=
  on_self (fun p => mkPP (destroyed p) (video p) r (ctx p) (callback p)).
Definition set_ctx (r : ref) : M unit :=
  on_self (fun p => mkPP (destroyed p) (video p) (canvas p) r (callback p)).
Definition set_callback (h : N) : M unit :=
  on_self (fun p => mkPP (destroyed p) (video p) (canvas p) (ctx p) (Some h)).

Definition this_video : M ref := gets (fun w => video (self w)).
Definition this_canvas : M ref := gets (fun w => canvas (self w)).
Definition this_ctx : M ref := gets (fun w => ctx (self w)).
Definition this_callback : M (option N) := gets (fun w => callback (self w)).

(** The one filter expression of the program. *)
Definition the_filter : string := "contrast(1.5) saturate(200%)".

(** [resize ()] *)
Definition resize : M unit :=
  (* this.canvas.width = this.video.videoWidth *)
  c <- this_canvas ;; member c ;;
  v <- this_video ;; member v ;;
  n <- gets (fun w => videoWidth (videoEl w)) ;;
  set_width n ;;
  (* this.canvas.height = this.video.videoHeight *)
  c <- this_canvas ;; member c ;;
  v <- this_video ;; member v ;;
  n <- gets (fun w => videoHeight (videoEl w)) ;;
  set_height n ;;
  (* this.ctx.filter = 'contrast(1.5) saturate(200%)' *)
  x <- this_ctx ;; member x ;;
  set_filter the_filter.

(** How a call of an [async] function ends: it always returns a promise,
    rejected when the body threw. *)
Inductive Promise : Type := fulfilled | rejected (e : Error).

Definition async {A} (body : M A) : M Promise :=
  fun w => match body w with
           | Return _ w' => Return fulfilled w'
           | Throw e w' => Return (rejected e) w'
           end.

(** [async processFrame ()].  Nothing in the body awaits: it runs to its
    end within the call. *)
Definition processFrame : M Promise :=
  async (
    (* this.ctx.drawImage(this.video, 0, 0) *)
    x <- this_ctx ;; member x ;;
    v <- this_video ;;
    drawImage v 0 0 ;;
    (* this.callback =
         this.video.requestVideoFrameCallback(this.processFrame.bind(this)) *)
    v <- this_video ;; member v ;;
    f <- bind_this m_processFrame ;;
    h <- requestVideoFrameCallback f ;;
    set_callback h).

(** [constructor (video, canvas)] *)
Definition constructor (video canvas : ref) : M unit :=
  (* this.destroyed = false *)
  set_destroyed false ;;
  (* this.video = video *)
  set_video video ;;
  (* this.canvas = canvas *)
  set_canvas canvas ;;
  (* video.addEventListener('resize', this.resize.bind(this)) *)
  member video ;;
  f <- bind_this m_resize ;;
  addEventListener "resize" f ;;
  (* video.addEventListener('loadedmetadata', this.resize.bind(this)) *)
  member video ;;
  f <- bind_this m_resize ;;
  addEventListener "loadedmetadata" f ;;
  (* this.ctx = canvas.getContext('2d') *)
  member canvas ;;
  x <- getContext2d ;;
  set_ctx x ;;
  (* this.resize() *)
  resize ;;
  (* this.callback =
       video.requestVideoFrameCallback(this.processFrame.bind(this)) *)
  member video ;;
  f <- bind_this m_processFrame ;;
  h <- requestVideoFrameCallback f ;;
  set_callback h.

(** [destroy ()] *)
Definition destroy : M unit :=
  (* this.destroyed = true *)
  set_destroyed true ;;
  (* this.video.cancelVideoFrameCallback(this.callback) *)
  v <- this_video ;; member v ;;
  h <- this_callback ;;
  cancelVideoFrameCallback h ;;
  (* this.video.removeEventListener('resize', this.resize) *)
  v <- this_video ;; member v ;;
  removeEventListener "resize" (Proto m_resize) ;;
  (* this.video.removeEventListener('loadedmetadata', this.resize) *)
  v <- this_video ;; member v ;;
  removeEventListener "loadedmetadata" (Proto m_resize).

(** [new PostProcessor(video, canvas)]: a new object, then the constructor
    on it.  The script makes one instance ([window.processor]), and the
    world holds that one. *)
Definition new (video canvas : ref) : M unit :=
  on_self (fun _ => blank) ;;
  constructor video canvas.

End PostProcessor.

(** ** The platform calling back *)

(** Calling a function object the platform holds.  A bound function runs
    the method on the instance.  The bare prototype method would run with
    the platform's own [this], which has none of the instance's properties:
    its first property access throws. *)
Definition invoke (f : Fn) : M unit :=
  match f with
  | Bound _ m_resize => PostProcessor.resize
  | Bound _ m_processFrame => PostProcessor.processFrame ;; ret tt
  | Proto m_resize => throw TypeError
  | Proto m_processFrame => PostProcessor.async (throw (A:=unit) TypeError) ;; ret tt
  end.

(** An exception that escapes a callback is reported, not propagated: the
    platform carries on from the state the callback left. *)
Definition reported {A} (m : M A) : World -> World :=
  fun w => state_of (m w).

Fixpoint invoke_all (fs : list Fn) (w : World) : World :=
  match fs with
  | [] => w
  | f :: rest => invoke_all rest (reported (invoke f) w)
  end.

(** Dispatching an event of the given type at the video: the listeners of
    that type, as listed when the dispatch starts, are called in order.
    (The platform skips a listener removed while the dispatch is under way;
    no callback of this program removes one.) *)
Definition dispatchEvent (type : string) (w : World) : World :=
  invoke_all
    (map snd (List.filter (fun l => String.eqb (fst l) type)
                          (listeners (videoEl w))))
    w.

(** Running the video frame request callbacks: the list is taken and
    emptied first, then each callback taken is called.  (The platform skips
    a callback cancelled while the run is under way; no callback of this
    program cancels one.) *)
Definition runFrameCallbacks (w : World) : World :=
  let v := videoEl w in
  invoke_all (map snd (frameRequests v))
    (mkWorld (mkVideo (videoWidth v) (videoHeight v) (currentFrame v)
                      (listeners v) [] (lastHandle v))
             (canvasEl w) (self w) (nextBound w)).

Definition set_dimensions (vw vh : N) (w : World) : World :=
  let v := videoEl w in
  mkWorld (mkVideo vw vh (currentFrame v) (listeners v) (frameRequests v)
                   (lastHandle v))
          (canvasEl w) (self w) (nextBound w).

Definition set_frame (f : Frame) (w : World) : World :=
  let v := videoEl w in
  mkWorld (mkVideo (videoWidth v) (videoHeight v) f (listeners v)
                   (frameRequests v) (lastHandle v))
          (canvasEl w) (self w) (nextBound w).

(** What the video can notify. *)
Inductive Notification : Type :=
| DimensionsChanged (vw vh : N)   (* 'resize' *)
| MetadataLoaded (vw vh : N)      (* 'loadedmetadata' *)
| FramePresented (f : Frame).     (* video frame request callbacks run *)

Definition deliver (n : Notification) (w : World) : World :=
  match n with
  | DimensionsChanged vw vh => dispatchEvent "resize" (set_dimensions vw vh w)
  | MetadataLoaded vw vh => dispatchEvent "loadedmetadata" (set_dimensions vw vh w)
  | FramePresented f => runFrameCallbacks (set_frame f w)
  end.

Fixpoint deliver_all (ns : list Notification) (w : World) : World :=
  match ns with
  | [] => w
  | n :: rest => deliver_all rest (deliver n w)
  end.

(** The worlds after the first, the first two, ... notifications. *)
Fixpoint worlds_after (ns : list Notification) (w : World) : list World :=
  match ns with
  | [] => []
  | n :: rest => deliver n w :: worlds_after rest (deliver n w)
  end.

(** A page on which no script has run yet: nothing is subscribed to the
    video. *)
Definition pristine (w : World) : Prop :=
  listeners (videoEl w) = [] /\ frameRequests (videoEl w) = [].

(** A page with a video of the given size showing frame [f] and a canvas
    with the default 300 x 150 bitmap. *)
Definition page (vw vh : N) (f : Frame) (m : ContextMode) : World :=
  mkWorld (mkVideo vw vh f [] [] 0)
          (mkCanvas 300 150 m "none" [] [])
          PostProcessor.blank 0.

(** ** Invariants of a constructed instance *)

(** The instance holds its three references. *)
Definition wired (w : World) : Prop :=
  video (self w) = obj /\ canvas (self w) = obj /\ ctx (self w) = obj.

(** The video's listener list is the two entries the constructor added. *)
Definition subscribed (w : World) : Prop :=
  exists a b,
    listeners (videoEl w) =
      [("resize", Bound a m_resize); ("loadedmetadata", Bound b m_resize)].

(** The canvas has the video's size and carries the program's filter. *)
Definition sized (w : World) : Prop :=
  width (canvasEl w) = videoWidth (videoEl w) /\
  height (canvasEl w) = videoHeight (videoEl w) /\
  filter (canvasEl w) = PostProcessor.the_filter.

(** Exactly one frame request is outstanding: a bound [processFrame], under
    the handle stored in [this.callback]. *)
Definition armed (w : World) : Prop :=
  exists h k,
    frameRequests (videoEl w) = [(h, Bound k m_processFrame)] /\
    callback (self w) = Some h.

(** No frame request is outstanding. *)
Definition idle (w : World) : Prop := frameRequests (videoEl w) = [].

(** The worlds a constructed, not yet destroyed instance can be in: those
    reached from a successful [new] on a pristine page by notifications. *)
Definition live (w : World) : Prop :=
  exists w0 w1 ns,
    pristine w0 /\
    PostProcessor.new obj obj w0 = Return tt w1 /\
    w = deliver_all ns w1.

(** What a frame notification paints. *)
Definition painted (n : Notification) : list Blit :=
  match n with
  | FramePresented f => [mkBlit f 0 0 PostProcessor.the_filter]
  | _ => []
  end.

Fixpoint painted_all (ns : list Notification) : list Blit :=
  match ns with
  | [] => []
  | n :: rest => painted_all rest ++ painted n
  end.

(** The invariants of a live instance, bundled. *)
Definition steady (w : World) : Prop :=
  wired w /\ subscribed w /\ sized w /\ armed w /\
  destroyed (self w) = Some false.

(** The invariants of a destroyed instance, bundled. *)
Definition retired (w : World) : Prop :=
  wired w /\ subscribed w /\ sized w /\ idle w /\
  destroyed (self w) = Some true.

(** What a dimension notification announces is what the video then has. *)
Definition announced (n : Notification) (w : World) : Prop :=
  match n with
  | DimensionsChanged vw vh | MetadataLoaded vw vh =>
      videoWidth (videoEl w) = vw /\ videoHeight (videoEl w) = vh
  | FramePresented _ => True
  end.

(** ** A session on a concrete page

    A 640 x 360 video; the instance is constructed; the video changes to
    1280 x 720; three frames are presented; [destroy ()] is called. *)

Module Demo.

(** A 640 x 360 video showing frame 1, and a canvas nobody has used. *)
Definition page0 : World := page 640 360 1 mode_none.

(** After [new PostProcessor(video, canvas)]. *)
Definition constructed : World := state_of (PostProcessor.new obj obj page0).

Definition history : list Notification :=
  [DimensionsChanged 1280 720;
   FramePresented 2; FramePresented 3; FramePresented 4].

(** After the change of size and the three frames. *)
Definition playing : World := deliver_all history constructed.

(** After [destroy ()]. *)
Definition torn_down : World := state_of (PostProcessor.destroy playing).

(** The callback that was queued when [destroy ()] was called. *)
Definition stale : Fn := Bound 5 m_processFrame.

End Demo.

(** ** The script around the class *)

Module Script.

(** What the selectors of the script find on the page.  The world always
    carries a video and a canvas; an element the document does not have is
    one no reference leads to, and nothing is said about it. *)
Record Document : Type := mkDocument {
  video_found : bool;
  canvas_found : bool
}.

(** [document.querySelector(selector)]: the first matching element, or
    [null] when the page has none. *)
Definition querySelector (d : Document) (selector : string) : ref :=
  if String.eqb selector "video" then
    if video_found d then obj else null
  else if String.eqb selector "canvas" then
    if canvas_found d then obj else null
  else null.

(** How the module ends: its body is evaluated only when its import could
    be loaded. *)
Inductive Run : Type :=
| not_evaluated
| evaluated (o : Outcome ref).

(** The module [main.js].

    [import 'https://esm.sh/rvfc-polyfill']: a static import.  When it
    cannot be loaded the body below never runs and the world stays as it
    is.  When it is loaded it gives the video
    [requestVideoFrameCallback] and [cancelVideoFrameCallback] where the
    browser has none; the world here has them either way.

    [window.processor = new PostProcessor(document.querySelector('video'),
    document.querySelector('canvas'))]: the value returned is the one
    stored in [window.processor]; when the constructor throws, nothing is
    stored. *)
Definition main (import_loaded : bool) (d : Document) (w : World) : Run :=
  if import_loaded then
    evaluated
      ((PostProcessor.new (querySelector d "video")
                          (querySelector d "canvas") ;;
        ret obj) w)
  else not_evaluated.

End Script.

(** ** Further notions *)

(** The same world with another value in [this.destroyed]. *)
Definition with_destroyed (d : option bool) (w : World) : World :=
  mkWorld (videoEl w) (canvasEl w)
          (mkPP d (video (self w)) (canvas (self w)) (ctx (self w))
                (callback (self w)))
          (nextBound w).

(** The repaint loop is going, whatever the flag says. *)
Definition running (w : World) : Prop :=
  wired w /\ subscribed w /\ sized w /\ armed w.

Definition about_dimensions (n : Notification) : bool :=
  match n with
  | DimensionsChanged _ _ | MetadataLoaded _ _ => true
  | FramePresented _ => false
  end.

(** The frames a sequence of notifications presents, in order. *)
Fixpoint frames_of (ns : list Notification) : list Frame :=
  match ns with
  | [] => []
  | FramePresented f :: rest => f :: frames_of rest
  | _ :: rest => frames_of rest
  end.

(** A page whose canvas is already bound to a context of another kind. *)
Definition page_without_2d : World := page 640 360 1 mode_other.

(** ** Proof tools *)

Ltac open_world w :=
  let v := fresh "v" in let c := fresh "c" in
  let p := fresh "p" in let nb := fresh "nb" in
  destruct w as [v c p nb]; destruct v, c, p; simpl in *.

Ltac open_inv :=
  unfold wired, subscribed, sized, armed, idle, pristine in *; simpl in *;
  repeat match goal with
         | H : _ /\ _ |- _ => destruct H
         | H : exists _, _ |- _ => destruct H
         end; subst; simpl in *.

(** Liveness of a world given by a concrete run. *)
Ltac live_by_run p w ns :=
  exists p, w, ns; split; [split; reflexivity|]; split; vm_compute; reflexivity.

(** ** Lemmas *)

Lemma new_returns (w0 : World) :
  pristine w0 -> contextMode (canvasEl w0) <> mode_other ->
  exists w, PostProcessor.new obj obj w0 = Return tt w.
Proof.
  intros Hp Hm. open_world w0. open_inv.
  destruct contextMode0; try congruence; eexists; cbv; reflexivity.
Qed.

Lemma new_establishes (w0 w : World) :
  pristine w0 -> PostProcessor.new obj obj w0 = Return tt w ->
  wired w /\ subscribed w /\ sized w /\ armed w /\
  destroyed (self w) = Some false /\
  videoWidth (videoEl w) = videoWidth (videoEl w0) /\
  videoHeight (videoEl w) = videoHeight (videoEl w0) /\
  blits (canvasEl w) = blits (canvasEl w0).
Proof.
  intros Hp Hn. open_world w0. open_inv.
  destruct contextMode0; cbv in Hn; inversion Hn; subst; cbn;
    repeat split; eauto.
Qed.

Lemma deliver_armed (n : Notification) (w : World) :
  wired w -> subscribed w -> sized w -> armed w ->
  wired (deliver n w) /\ subscribed (deliver n w) /\ sized (deliver n w) /\
  armed (deliver n w) /\
  destroyed (self (deliver n w)) = destroyed (self w) /\
  blits (canvasEl (deliver n w)) = painted n ++ blits (canvasEl w).
Proof.
  intros Hw Hs Hz Ha. open_world w. open_inv.
  destruct n; cbn; repeat split; eauto.
Qed.

Lemma deliver_idle (n : Notification) (w : World) :
  wired w -> subscribed w -> sized w -> idle w ->
  wired (deliver n w) /\ subscribed (deliver n w) /\ sized (deliver n w) /\
  idle (deliver n w) /\
  destroyed (self (deliver n w)) = destroyed (self w) /\
  blits (canvasEl (deliver n w)) = blits (canvasEl w).
Proof.
  intros Hw Hs Hz Hi. open_world w. open_inv.
  destruct n; cbn; repeat split; eauto.
Qed.

Lemma deliver_steady (n : Notification) (w : World) :
  steady w ->
  steady (deliver n w) /\
  blits (canvasEl (deliver n w)) = painted n ++ blits (canvasEl w).
Proof.
  intros (Hw & Hs & Hz & Ha & Hd).
  destruct (deliver_armed n w Hw Hs Hz Ha) as (? & ? & ? & ? & Hd' & ?).
  unfold steady. rewrite Hd'. auto 10.
Qed.

Lemma deliver_retired (n : Notification) (w : World) :
  retired w ->
  retired (deliver n w) /\
  blits (canvasEl (deliver n w)) = blits (canvasEl w).
Proof.
  intros (Hw & Hs & Hz & Hi & Hd).
  destruct (deliver_idle n w Hw Hs Hz Hi) as (? & ? & ? & ? & Hd' & ?).
  unfold retired. rewrite Hd'. auto 10.
Qed.

Lemma deliver_all_steady (ns : list Notification) : forall w : World,
  steady w ->
  steady (deliver_all ns w) /\
  blits (canvasEl (deliver_all ns w)) = painted_all ns ++ blits (canvasEl w).
Proof.
  induction ns as [|n ns IH]; intros w Hs; simpl.
  - auto.
  - destruct (deliver_steady n w Hs) as [Hs' Hb].
    destruct (IH _ Hs') as [Hs'' Hb'].
    split; [assumption|]. rewrite Hb', Hb, app_assoc. reflexivity.
Qed.

Lemma deliver_all_retired (ns : list Notification) : forall w : World,
  retired w ->
  retired (deliver_all ns w) /\
  blits (canvasEl (deliver_all ns w)) = blits (canvasEl w).
Proof.
  induction ns as [|n ns IH]; intros w Hr; simpl.
  - auto.
  - destruct (deliver_retired n w Hr) as [Hr' Hb].
    destruct (IH _ Hr') as [Hr'' Hb'].
    split; [assumption|]. congruence.
Qed.

Lemma worlds_after_steady (ns : list Notification) : forall w : World,
  steady w -> Forall steady (worlds_after ns w).
Proof.
  induction ns as [|n ns IH]; intros w Hs; simpl; constructor.
  - apply deliver_steady, Hs.
  - apply IH, deliver_steady, Hs.
Qed.

Lemma live_steady (w : World) : live w -> steady w.
Proof.
  intros (w0 & w1 & ns & Hp & Hn & ->).
  apply deliver_all_steady.
  destruct (new_establishes w0 w1 Hp Hn) as (? & ? & ? & ? & ? & _).
  unfold steady. auto.
Qed.

Lemma live_deliver_all (ns : list Notification) (w : World) :
  live w -> live (deliver_all ns w).
Proof.
  intros (w0 & w1 & pre & Hp & Hn & ->).
  exists w0, w1, (pre ++ ns). split; [assumption|]. split; [assumption|].
  clear Hn. revert w1.
  induction pre as [|n pre IH]; intros w1; simpl; [reflexivity|apply IH].
Qed.

(** [destroy] on a live instance returns and retires it, leaving the
    listener list as it was. *)
Lemma destroy_steady (w : World) :
  steady w ->
  exists w', PostProcessor.destroy w = Return tt w' /\ retired w' /\
             listeners (videoEl w') = listeners (videoEl w).
Proof.
  intros (Hw & Hs & Hz & Ha & Hd). open_world w. open_inv.
  unfold PostProcessor.destroy, bind, PostProcessor.this_video,
    PostProcessor.this_callback, cancelVideoFrameCallback. cbn.
  rewrite N.eqb_refl. cbn.
  eexists. split; [reflexivity|].
  unfold retired, wired, subscribed, sized, idle. cbn.
  repeat split; eauto.
Qed.

(** [destroy] on a destroyed instance returns and changes nothing. *)
Lemma destroy_retired (w : World) :
  retired w -> PostProcessor.destroy w = Return tt w.
Proof.
  intros (Hw & Hs & Hz & Hi & Hd). open_world w. open_inv. reflexivity.
Qed.

Lemma deliver_announced (n : Notification) (w : World) :
  steady w -> announced n (deliver n w).
Proof.
  intros (Hw & Hs & Hz & Ha & Hd). open_world w. open_inv.
  destruct n; cbn; auto.
Qed.

Lemma painted_all_frames (fs : list Frame) :
  painted_all (map FramePresented fs) =
  rev (map (fun f => mkBlit f 0 0 PostProcessor.the_filter) fs).
Proof.
  induction fs as [|f fs IH]; simpl; [reflexivity|].
  rewrite IH. reflexivity.
Qed.

(** Writing either dimension of the canvas leaves the filter at the
    default, whatever it was. *)
Lemma dimension_write_resets_filter (n : N) (w : World) :
  filter (canvasEl (state_of (set_width n w))) = "none" /\
  filter (canvasEl (state_of (set_height n w))) = "none".
Proof. split; reflexivity. Qed.

(** Without a 2D context to be had, the constructor ends in the
    [TypeError] of [this.ctx.filter = ...] inside its [resize ()] call. *)
Lemma new_without_2d_throws (w0 : World) :
  contextMode (canvasEl w0) = mode_other ->
  exists w, PostProcessor.new obj obj w0 = Throw TypeError w.
Proof.
  intros Hm. open_world w0. subst.
  unfold PostProcessor.new, PostProcessor.constructor, bind, addEventListener.
  cbn.
  repeat match goal with
         | |- context [if ?b then _ else _] => destruct b; cbn
         end; eexists; reflexivity.
Qed.

(** [destroy] never touches the canvas. *)
Lemma destroy_leaves_canvas (w : World) :
  canvasEl (state_of (PostProcessor.destroy w)) = canvasEl w.
Proof.
  open_world w. destruct video0; reflexivity.
Qed.

(** On every live instance [destroy] leaves the listener list as it was,
    with both bound [resize] entries in it. *)
Lemma destroy_keeps_listeners (w : World) :
  live w ->
  listeners (videoEl (state_of (PostProcessor.destroy w))) =
    listeners (videoEl w) /\
  subscribed (state_of (PostProcessor.destroy w)).
Proof.
  intros Hl. apply live_steady in Hl.
  destruct (destroy_steady w Hl) as (wd & -> & (_ & Hs & _) & Hk).
  simpl. auto.
Qed.

(** With the video [null] nothing has been subscribed when the error is
    thrown; with only the canvas [null], the two listeners are on the video
    by then. *)
Lemma constructor_null_canvas_subscribed :
  listeners (videoEl (state_of (PostProcessor.new null obj Demo.page0))) = [] /\
  listeners (videoEl (state_of (PostProcessor.new obj null Demo.page0))) =
    [("resize", Bound 0 m_resize); ("loadedmetadata", Bound 1 m_resize)].
Proof.
  vm_compute. split; reflexivity.
Qed.

(** The session, evaluated. *)
Lemma demo_session :
  PostProcessor.new obj obj Demo.page0 = Return tt Demo.constructed /\
  (width (canvasEl Demo.constructed), height (canvasEl Demo.constructed)) =
    (640%N, 360%N) /\
  filter (canvasEl Demo.constructed) = PostProcessor.the_filter /\
  (width (canvasEl Demo.playing), height (canvasEl Demo.playing)) = (1280%N, 720%N) /\
  filter (canvasEl Demo.playing) = PostProcessor.the_filter /\
  List.length (blits (canvasEl Demo.playing)) = 3 /\
  frameRequests (videoEl Demo.playing) = [(4%N, Demo.stale)] /\
  callback (self Demo.playing) = Some 4%N /\
  PostProcessor.destroy Demo.playing = Return tt Demo.torn_down.
Proof.
  vm_compute. repeat split.
Qed.

(** ** Properties *)

(** C1, as stated, fails: [processFrame] never reads [this.destroyed].
    In the demo session three blits have been made when [destroy ()]
    returns, the flag is set and no frame request is outstanding; a
    notification then delivered to the callback of the cancelled request
    makes a fourth blit and queues a new frame request. *)
Lemma stale_frame_callback_still_blits :
  destroyed (self Demo.torn_down) = Some true /\
  frameRequests (videoEl Demo.torn_down) = [] /\
  List.length (blits (canvasEl Demo.torn_down)) = 3 /\
  List.length
    (blits (canvasEl (reported (invoke Demo.stale) Demo.torn_down))) = 4 /\
  blits (canvasEl (reported (invoke Demo.stale) Demo.torn_down)) =
    mkBlit 4 0 0 PostProcessor.the_filter :: blits (canvasEl Demo.torn_down) /\
  blits (canvasEl (reported (invoke Demo.stale) Demo.torn_down)) <>
    blits (canvasEl Demo.torn_down) /\
  frameRequests (videoEl (reported (invoke Demo.stale) Demo.torn_down)) =
    [(5%N, Bound 6 m_processFrame)].
Proof.
  vm_compute. repeat split. discriminate.
Qed.

(** C1, amended.  [destroy ()] on a live instance returns, sets the flag and
    cancels the one outstanding frame request; from then on no notification
    the video delivers (frame presented, also one that was due when
    [destroy ()] was called; dimensions changed; metadata loaded) makes a
    blit, and no frame request is ever outstanding again. *)
Theorem destroy_stops_notified_blits (w : World) (ns : list Notification) :
  live w ->
  exists wd,
    PostProcessor.destroy w = Return tt wd /\
    destroyed (self wd) = Some true /\
    frameRequests (videoEl wd) = [] /\
    blits (canvasEl (deliver_all ns wd)) = blits (canvasEl w) /\
    frameRequests (videoEl (deliver_all ns wd)) = [].
Proof.
  intros Hl. apply live_steady in Hl.
  destruct (destroy_steady w Hl) as (wd & Hd & Hr & _).
  exists wd. split; [exact Hd|].
  pose proof (destroy_leaves_canvas w) as Hc. rewrite Hd in Hc. simpl in Hc.
  destruct (deliver_all_retired ns wd Hr) as [(_ & _ & _ & Hi & _) Hb].
  destruct Hr as (_ & _ & _ & Hi0 & Hf).
  split; [exact Hf|]. split; [exact Hi0|]. split; [|exact Hi].
  rewrite Hb, Hc. reflexivity.
Qed.

Lemma destroy_stops_notified_blits_witness :
  exists wd,
    PostProcessor.destroy Demo.playing = Return tt wd /\
    destroyed (self wd) = Some true /\
    frameRequests (videoEl wd) = [] /\
    blits (canvasEl (deliver_all [FramePresented 5; DimensionsChanged 320 240;
                                  FramePresented 6] wd)) =
      blits (canvasEl Demo.playing) /\
    frameRequests (videoEl (deliver_all [FramePresented 5;
                                         DimensionsChanged 320 240;
                                         FramePresented 6] wd)) = [].
Proof.
  apply (destroy_stops_notified_blits Demo.playing).
  live_by_run Demo.page0 Demo.constructed Demo.history.
Defined.

(** C2, evaluated where it fails.  The constructor subscribes two fresh
    [this.resize.bind(this)] objects; [destroy] asks to remove
    [this.resize], which is neither of them.  In the demo session the
    listener list after [destroy ()] is the one before it, and a
    dimensions-changed or metadata-loaded notification delivered afterwards
    still runs [resize]: the canvas leaves 1280 x 720 for the new size. *)
Theorem resize_listeners_survive_destroy :
  listeners (videoEl Demo.playing) =
    [("resize", Bound 0 m_resize); ("loadedmetadata", Bound 1 m_resize)] /\
  PostProcessor.destroy Demo.playing = Return tt Demo.torn_down /\
  listeners (videoEl Demo.torn_down) = listeners (videoEl Demo.playing) /\
  (width (canvasEl Demo.torn_down), height (canvasEl Demo.torn_down)) =
    (1280%N, 720%N) /\
  (width (canvasEl (deliver (DimensionsChanged 1920 1080) Demo.torn_down)),
   height (canvasEl (deliver (DimensionsChanged 1920 1080) Demo.torn_down))) =
    (1920%N, 1080%N) /\
  (width (canvasEl (deliver (MetadataLoaded 320 240) Demo.torn_down)),
   height (canvasEl (deliver (MetadataLoaded 320 240) Demo.torn_down))) =
    (320%N, 240%N).
Proof.
  vm_compute. repeat split.
Qed.

(** C3.  On a live (constructed, not destroyed) instance, after each
    notification of a sequence the canvas has the video's width and height,
    which for a dimensions-changed or metadata-loaded notification are the
    ones it announced, and the filter of the context is the program's
    filter expression, hence not empty. *)
Theorem surface_tracks_dimensions (w : World) (ns : list Notification) :
  live w ->
  Forall2 (fun n st =>
             announced n st /\
             width (canvasEl st) = videoWidth (videoEl st) /\
             height (canvasEl st) = videoHeight (videoEl st) /\
             filter (canvasEl st) = PostProcessor.the_filter /\
             filter (canvasEl st) <> "")
          ns (worlds_after ns w).
Proof.
  intros Hl. apply live_steady in Hl. revert w Hl.
  induction ns as [|n ns IH]; intros w Hs; simpl; constructor.
  - destruct (deliver_steady n w Hs) as [(_ & _ & (Hwd & Hht & Hf) & _) _].
    split; [apply deliver_announced, Hs|].
    repeat (split; [assumption|]).
    rewrite Hf. discriminate.
  - apply IH, deliver_steady, Hs.
Qed.

Lemma surface_tracks_dimensions_witness :
  Forall2 (fun n st =>
             announced n st /\
             width (canvasEl st) = videoWidth (videoEl st) /\
             height (canvasEl st) = videoHeight (videoEl st) /\
             filter (canvasEl st) = PostProcessor.the_filter /\
             filter (canvasEl st) <> "")
          [DimensionsChanged 1920 1080; MetadataLoaded 320 240]
          (worlds_after [DimensionsChanged 1920 1080; MetadataLoaded 320 240]
                        Demo.playing).
Proof.
  apply (surface_tracks_dimensions Demo.playing).
  live_by_run Demo.page0 Demo.constructed Demo.history.
Defined.

(** C4.  On a live instance, N frame-presented notifications make exactly N
    blits, one per notification and in their order, each copying the frame
    then shown to the origin of the canvas; after each notification exactly
    one frame request is outstanding, registered by the handler under the
    handle it stored in [this.callback]. *)
Theorem frames_blit_once_and_rearm (w : World) (fs : list Frame) :
  live w ->
  blits (canvasEl (deliver_all (map FramePresented fs) w)) =
    rev (map (fun f => mkBlit f 0 0 PostProcessor.the_filter) fs)
    ++ blits (canvasEl w) /\
  List.length (blits (canvasEl (deliver_all (map FramePresented fs) w))) =
    List.length fs + List.length (blits (canvasEl w)) /\
  Forall (fun st => List.length (frameRequests (videoEl st)) = 1 /\
                    armed st /\
                    destroyed (self st) = Some false)
         (worlds_after (map FramePresented fs) w).
Proof.
  intros Hl. apply live_steady in Hl.
  destruct (deliver_all_steady (map FramePresented fs) w Hl) as [_ Hb].
  rewrite painted_all_frames in Hb.
  split; [exact Hb|]. split.
  - rewrite Hb, length_app, length_rev, length_map. reflexivity.
  - eapply Forall_impl; [|apply worlds_after_steady, Hl].
    intros st (_ & _ & _ & Ha & Hd).
    split; [|split; assumption].
    destruct Ha as (h & k & -> & _). reflexivity.
Qed.

Lemma frames_blit_once_and_rearm_witness :
  blits (canvasEl (deliver_all (map FramePresented [5; 6]) Demo.playing)) =
    rev (map (fun f => mkBlit f 0 0 PostProcessor.the_filter) [5; 6])
    ++ blits (canvasEl Demo.playing) /\
  List.length (blits (canvasEl (deliver_all (map FramePresented [5; 6])
                                            Demo.playing))) =
    List.length [5; 6] + List.length (blits (canvasEl Demo.playing)) /\
  Forall (fun st => List.length (frameRequests (videoEl st)) = 1 /\
                    armed st /\
                    destroyed (self st) = Some false)
         (worlds_after (map FramePresented [5; 6]) Demo.playing).
Proof.
  apply (frames_blit_once_and_rearm Demo.playing [5; 6]).
  live_by_run Demo.page0 Demo.constructed Demo.history.
Defined.

(** C5.  On a page where a 2D context can be had, [new PostProcessor(video,
    canvas)] returns, and when it has returned the canvas already has the
    width and height the video had when the constructor was called (no
    notification has been delivered: the in-constructor [resize ()] did
    it), and exactly one frame request is outstanding, the one whose handle
    is stored in [this.callback]. *)
Theorem constructor_sizes_and_arms (w0 : World) :
  pristine w0 ->
  contextMode (canvasEl w0) <> mode_other ->
  exists w,
    PostProcessor.new obj obj w0 = Return tt w /\
    width (canvasEl w) = videoWidth (videoEl w0) /\
    height (canvasEl w) = videoHeight (videoEl w0) /\
    videoWidth (videoEl w) = videoWidth (videoEl w0) /\
    videoHeight (videoEl w) = videoHeight (videoEl w0) /\
    List.length (frameRequests (videoEl w)) = 1 /\
    armed w.
Proof.
  intros Hp Hm.
  destruct (new_returns w0 Hp Hm) as [w Hn]. exists w.
  split; [exact Hn|].
  destruct (new_establishes w0 w Hp Hn)
    as (_ & _ & (Hwd & Hht & _) & Ha & _ & Hvw & Hvh & _).
  rewrite <- Hvw, <- Hvh.
  split; [exact Hwd|]. split; [exact Hht|].
  split; [reflexivity|]. split; [reflexivity|].
  split; [|exact Ha].
  destruct Ha as (h & k & -> & _). reflexivity.
Qed.

Lemma constructor_sizes_and_arms_witness :
  exists w,
    PostProcessor.new obj obj Demo.page0 = Return tt w /\
    width (canvasEl w) = videoWidth (videoEl Demo.page0) /\
    height (canvasEl w) = videoHeight (videoEl Demo.page0) /\
    videoWidth (videoEl w) = videoWidth (videoEl Demo.page0) /\
    videoHeight (videoEl w) = videoHeight (videoEl Demo.page0) /\
    List.length (frameRequests (videoEl w)) = 1 /\
    armed w.
Proof.
  apply (constructor_sizes_and_arms Demo.page0).
  - split; reflexivity.
  - simpl. discriminate.
Defined.

(** C6.  On a live instance [destroy ()] returns, and so does a second
    [destroy ()], at once or after any further notifications; the second
    call finds the handle in [this.callback] no longer queued and no
    listener to remove, and leaves the world exactly as it found it. *)
Theorem destroy_twice_returns (w : World) :
  live w ->
  exists w1,
    PostProcessor.destroy w = Return tt w1 /\
    PostProcessor.destroy w1 = Return tt w1 /\
    forall ns,
      PostProcessor.destroy (deliver_all ns w1) = Return tt (deliver_all ns w1).
Proof.
  intros Hl. apply live_steady in Hl.
  destruct (destroy_steady w Hl) as (w1 & Hd & Hr & _).
  exists w1. split; [exact Hd|]. split.
  - apply destroy_retired, Hr.
  - intros ns. apply destroy_retired, deliver_all_retired, Hr.
Qed.

Lemma destroy_twice_returns_witness :
  exists w1,
    PostProcessor.destroy Demo.playing = Return tt w1 /\
    PostProcessor.destroy w1 = Return tt w1 /\
    forall ns,
      PostProcessor.destroy (deliver_all ns w1) = Return tt (deliver_all ns w1).
Proof.
  apply (destroy_twice_returns Demo.playing).
  live_by_run Demo.page0 Demo.constructed Demo.history.
Defined.

(** C7, as stated, fails: the constructor has no check of its handles and
    goes on with a [null] one until it is dereferenced.  On the demo page,
    with the video found and a [null] canvas, the [null] is stored in
    [this.canvas] and both listeners are subscribed on the video before the
    [TypeError] of [canvas.getContext] is thrown; the listener list is no
    longer the one the page had. *)
Lemma null_canvas_construction_proceeds :
  PostProcessor.new obj null Demo.page0 =
    Throw TypeError (state_of (PostProcessor.new obj null Demo.page0)) /\
  canvas (self (state_of (PostProcessor.new obj null Demo.page0))) = null /\
  listeners (videoEl (state_of (PostProcessor.new obj null Demo.page0))) =
    [("resize", Bound 0 m_resize); ("loadedmetadata", Bound 1 m_resize)] /\
  listeners (videoEl (state_of (PostProcessor.new obj null Demo.page0))) <>
    listeners (videoEl Demo.page0).
Proof.
  vm_compute. repeat split. discriminate.
Qed.

(** C7, amended.  With a [null] video or a [null] canvas,
    [new PostProcessor] does not return: the handles are stored as given
    and a [TypeError] is thrown at the first dereference of the [null]
    one.  That is before the canvas is written and before any frame
    request is made.  With a video that is not an object nothing has been
    subscribed by then; with the video found and the canvas [null], both
    listeners are on the video (on a page where none was). *)
Theorem constructor_null_handle_throws (v c : ref) (w0 : World) :
  v = null \/ c = null ->
  exists w',
    PostProcessor.new v c w0 = Throw TypeError w' /\
    video (self w') = v /\
    canvas (self w') = c /\
    canvasEl w' = canvasEl w0 /\
    frameRequests (videoEl w') = frameRequests (videoEl w0) /\
    callback (self w') = None /\
    (v <> obj -> listeners (videoEl w') = listeners (videoEl w0)) /\
    (v = obj -> listeners (videoEl w0) = [] ->
     listeners (videoEl w') =
       [("resize", Bound (nextBound w0) m_resize);
        ("loadedmetadata", Bound (S (nextBound w0)) m_resize)]).
Proof.
  intros H. open_world w0.
  assert (Hv : v = obj -> c = null) by (destruct H; congruence).
  destruct v.
  - eexists. split; [reflexivity|]. cbn.
    do 5 (split; [reflexivity|]).
    split; [intros _; reflexivity|intros Hn; discriminate Hn].
  - eexists. split; [reflexivity|]. cbn.
    do 5 (split; [reflexivity|]).
    split; [intros _; reflexivity|intros Hn; discriminate Hn].
  - rewrite (Hv eq_refl).
    unfold PostProcessor.new, PostProcessor.constructor, bind,
      addEventListener.
    cbn.
    eexists. split; [reflexivity|]. cbn.
    split; [reflexivity|]. split; [reflexivity|].
    split; [reflexivity|].
    split.
    { repeat match goal with
             | |- context [if ?b then _ else _] => destruct b; cbn
             end; reflexivity. }
    split; [reflexivity|].
    split; [intros Hn; congruence|].
    intros _ ->. reflexivity.
Qed.

Lemma constructor_null_handle_throws_witness :
  exists w',
    PostProcessor.new obj null Demo.page0 = Throw TypeError w' /\
    video (self w') = obj /\
    canvas (self w') = null /\
    canvasEl w' = canvasEl Demo.page0 /\
    frameRequests (videoEl w') = frameRequests (videoEl Demo.page0) /\
    callback (self w') = None /\
    (obj <> obj -> listeners (videoEl w') = listeners (videoEl Demo.page0)) /\
    (obj = obj -> listeners (videoEl Demo.page0) = [] ->
     listeners (videoEl w') =
       [("resize", Bound (nextBound Demo.page0) m_resize);
        ("loadedmetadata", Bound (S (nextBound Demo.page0)) m_resize)]).
Proof.
  apply (constructor_null_handle_throws obj null Demo.page0).
  right. reflexivity.
Defined.

(** C8.  However [destroy ()] ends, the canvas (width, height, context,
    filter, bitmap, blits made) is as before, the instance still holds the
    same [video], [canvas] and [ctx] references and the same [callback]
    handle, and the video keeps its size and its frame; the flag is set,
    and only the video's two subscription lists are open to change. *)
Theorem destroy_frame (w : World) :
  canvasEl (state_of (PostProcessor.destroy w)) = canvasEl w /\
  video (self (state_of (PostProcessor.destroy w))) = video (self w) /\
  canvas (self (state_of (PostProcessor.destroy w))) = canvas (self w) /\
  ctx (self (state_of (PostProcessor.destroy w))) = ctx (self w) /\
  callback (self (state_of (PostProcessor.destroy w))) = callback (self w) /\
  destroyed (self (state_of (PostProcessor.destroy w))) = Some true /\
  videoWidth (videoEl (state_of (PostProcessor.destroy w))) =
    videoWidth (videoEl w) /\
  videoHeight (videoEl (state_of (PostProcessor.destroy w))) =
    videoHeight (videoEl w) /\
  currentFrame (videoEl (state_of (PostProcessor.destroy w))) =
    currentFrame (videoEl w) /\
  nextBound (state_of (PostProcessor.destroy w)) = nextBound w.
Proof.
  open_world w. destruct video0; cbn; repeat split.
Qed.

(** C9.  On an instance holding its three references, [resize ()] returns
    and leaves the filter of the context equal to the one constant
    expression, whatever the filter was before and although each of the two
    dimension writes before it has put the filter back to the default. *)
Theorem resize_applies_the_filter (w : World) :
  wired w ->
  exists w',
    PostProcessor.resize w = Return tt w' /\
    filter (canvasEl w') = "contrast(1.5) saturate(200%)" /\
    filter (canvasEl w') = PostProcessor.the_filter.
Proof.
  intros Hw. open_world w. open_inv.
  eexists. split; [cbv; reflexivity|]. split; reflexivity.
Qed.

Lemma resize_applies_the_filter_witness :
  exists w',
    PostProcessor.resize Demo.playing = Return tt w' /\
    filter (canvasEl w') = "contrast(1.5) saturate(200%)" /\
    filter (canvasEl w') = PostProcessor.the_filter.
Proof.
  apply (resize_applies_the_filter Demo.playing).
  vm_compute. repeat split.
Defined.

(** C10.  With the video's dimensions fixed, [resize ()] twice leaves the
    canvas with the width, height and filter that [resize ()] once leaves;
    the second call changes nothing at all. *)
Theorem resize_idempotent (w : World) :
  wired w ->
  exists w1 w2,
    PostProcessor.resize w = Return tt w1 /\
    PostProcessor.resize w1 = Return tt w2 /\
    width (canvasEl w2) = width (canvasEl w1) /\
    height (canvasEl w2) = height (canvasEl w1) /\
    filter (canvasEl w2) = filter (canvasEl w1) /\
    w2 = w1.
Proof.
  intros Hw. open_world w. open_inv.
  eexists. eexists. split; [cbv; reflexivity|].
  split; [cbv; reflexivity|]. repeat split.
Qed.

Lemma resize_idempotent_witness :
  exists w1 w2,
    PostProcessor.resize Demo.playing = Return tt w1 /\
    PostProcessor.resize w1 = Return tt w2 /\
    width (canvasEl w2) = width (canvasEl w1) /\
    height (canvasEl w2) = height (canvasEl w1) /\
    filter (canvasEl w2) = filter (canvasEl w1) /\
    w2 = w1.
Proof.
  apply (resize_idempotent Demo.playing).
  vm_compute. repeat split.
Defined.

(** ** Further properties *)

Lemma running_of_steady (w : World) : steady w -> running w.
Proof. intros (? & ? & ? & ? & _). unfold running. auto. Qed.

Lemma running_of_live (w : World) : live w -> running w.
Proof. intros Hl. apply running_of_steady, live_steady, Hl. Qed.

Lemma deliver_running (n : Notification) (w : World) :
  running w ->
  running (deliver n w) /\
  destroyed (self (deliver n w)) = destroyed (self w) /\
  blits (canvasEl (deliver n w)) = painted n ++ blits (canvasEl w).
Proof.
  intros (Hw & Hs & Hz & Ha).
  destruct (deliver_armed n w Hw Hs Hz Ha) as (? & ? & ? & ? & ? & ?).
  unfold running. auto 10.
Qed.

Lemma deliver_all_running (ns : list Notification) : forall w : World,
  running w ->
  running (deliver_all ns w) /\
  destroyed (self (deliver_all ns w)) = destroyed (self w) /\
  blits (canvasEl (deliver_all ns w)) = painted_all ns ++ blits (canvasEl w).
Proof.
  induction ns as [|n ns IH]; intros w Hr; simpl.
  - auto.
  - destruct (deliver_running n w Hr) as (Hr' & Hd & Hb).
    destruct (IH _ Hr') as (Hr'' & Hd' & Hb').
    split; [assumption|]. split; [congruence|].
    rewrite Hb', Hb, app_assoc. reflexivity.
Qed.

Lemma painted_all_frames_of (ns : list Notification) :
  painted_all ns =
  rev (map (fun f => mkBlit f 0 0 PostProcessor.the_filter) (frames_of ns)).
Proof.
  induction ns as [|n ns IH]; simpl; [reflexivity|].
  rewrite IH. destruct n; simpl; rewrite ?app_nil_r; reflexivity.
Qed.

Lemma invoke_with_destroyed (d : option bool) (f : Fn) (w : World) :
  reported (invoke f) (with_destroyed d w) =
  with_destroyed d (reported (invoke f) w).
Proof.
  destruct f as [m|k m]; destruct m; open_world w;
    destruct video0, canvas0, ctx0; vm_compute; reflexivity.
Qed.

Lemma invoke_all_with_destroyed (d : option bool) (fs : list Fn) :
  forall w : World,
    invoke_all fs (with_destroyed d w) = with_destroyed d (invoke_all fs w).
Proof.
  induction fs as [|f fs IH]; intros w; simpl; [reflexivity|].
  rewrite invoke_with_destroyed. apply IH.
Qed.

(** X1.  The value of [this.destroyed] decides nothing.  Calling any of the
    function objects, delivering any notification, and [destroy ()] itself
    do to a world with another flag exactly what they do to the world as it
    is; only [destroy ()] writes the flag, and nothing reads it. *)
Theorem destroyed_flag_decides_nothing (d : option bool) (w : World) :
  (forall f, reported (invoke f) (with_destroyed d w) =
             with_destroyed d (reported (invoke f) w)) /\
  (forall n, deliver n (with_destroyed d w) = with_destroyed d (deliver n w)) /\
  (forall ns, deliver_all ns (with_destroyed d w) =
              with_destroyed d (deliver_all ns w)) /\
  state_of (PostProcessor.destroy (with_destroyed d w)) =
    state_of (PostProcessor.destroy w).
Proof.
  assert (Hn : forall n w', deliver n (with_destroyed d w') =
                            with_destroyed d (deliver n w')).
  { intros n w'. destruct n as [vw vh|vw vh|f]; unfold deliver.
    - exact (invoke_all_with_destroyed d _ (set_dimensions vw vh w')).
    - exact (invoke_all_with_destroyed d _ (set_dimensions vw vh w')).
    - unfold runFrameCallbacks.
      exact (invoke_all_with_destroyed d _
               (mkWorld (mkVideo (videoWidth (videoEl w'))
                                 (videoHeight (videoEl w')) f
                                 (listeners (videoEl w')) []
                                 (lastHandle (videoEl w')))
                        (canvasEl w') (self w') (nextBound w'))). }
  split; [intros f; apply invoke_with_destroyed|].
  split; [intros n; apply Hn|]. split.
  - intros ns. revert w. induction ns as [|n ns IH]; intros w; simpl.
    + reflexivity.
    + rewrite Hn. apply IH.
  - open_world w. destruct video0; reflexivity.
Qed.

(** [destroy] leaves the frame the video shows. *)
Lemma destroy_frame_video (w : World) :
  currentFrame (videoEl (state_of (PostProcessor.destroy w))) =
  currentFrame (videoEl w).
Proof.
  open_world w. destruct video0; reflexivity.
Qed.

Lemma stray_call_on_retired (k : nat) (w : World) :
  retired w ->
  running (reported (invoke (Bound k m_processFrame)) w) /\
  destroyed (self (reported (invoke (Bound k m_processFrame)) w)) = Some true /\
  blits (canvasEl (reported (invoke (Bound k m_processFrame)) w)) =
    mkBlit (currentFrame (videoEl w)) 0 0 PostProcessor.the_filter
    :: blits (canvasEl w).
Proof.
  intros (Hw & Hs & Hz & Hi & Hd). open_world w. open_inv.
  unfold running, wired, subscribed, sized, armed. cbn.
  repeat split; eauto.
Qed.

Lemma destroy_running (w : World) :
  running w ->
  exists w', PostProcessor.destroy w = Return tt w' /\ retired w' /\
             canvasEl w' = canvasEl w.
Proof.
  intros (Hw & Hs & Hz & Ha). open_world w. open_inv.
  unfold PostProcessor.destroy, bind, PostProcessor.this_video,
    PostProcessor.this_callback, cancelVideoFrameCallback. cbn.
  rewrite N.eqb_refl. cbn.
  eexists. split; [reflexivity|].
  unfold retired, wired, subscribed, sized, idle. cbn.
  repeat split; eauto.
Qed.

(** X2.  A call of a bound [processFrame] on a destroyed instance starts
    the repaint loop again: it blits the frame the video shows and leaves
    one frame request outstanding under the handle in [this.callback],
    with the flag still set; every frame presented from then on is blitted
    as on a live instance. *)
Theorem stray_call_restarts_the_loop (w : World) (k : nat) (fs : list Frame) :
  live w ->
  exists wd,
    PostProcessor.destroy w = Return tt wd /\
    destroyed (self (reported (invoke (Bound k m_processFrame)) wd)) =
      Some true /\
    armed (reported (invoke (Bound k m_processFrame)) wd) /\
    blits (canvasEl (reported (invoke (Bound k m_processFrame)) wd)) =
      mkBlit (currentFrame (videoEl w)) 0 0 PostProcessor.the_filter
      :: blits (canvasEl w) /\
    blits (canvasEl (deliver_all (map FramePresented fs)
                       (reported (invoke (Bound k m_processFrame)) wd))) =
      rev (map (fun f => mkBlit f 0 0 PostProcessor.the_filter) fs)
      ++ mkBlit (currentFrame (videoEl w)) 0 0 PostProcessor.the_filter
      :: blits (canvasEl w).
Proof.
  intros Hl. apply running_of_live in Hl.
  destruct (destroy_running w Hl) as (wd & Hd & Hr & Hc).
  exists wd. split; [exact Hd|].
  destruct (stray_call_on_retired k wd Hr) as (Hz & Hf & Hb).
  assert (Hcur : currentFrame (videoEl wd) = currentFrame (videoEl w)).
  { pose proof (destroy_frame_video w) as Hv. rewrite Hd in Hv. exact Hv. }
  rewrite Hc, Hcur in Hb.
  split; [exact Hf|]. split; [apply Hz|]. split; [exact Hb|].
  destruct (deliver_all_running (map FramePresented fs) _ Hz) as (_ & _ & Hbs).
  rewrite Hbs, painted_all_frames, Hb. reflexivity.
Qed.

Lemma stray_call_restarts_the_loop_witness :
  exists wd,
    PostProcessor.destroy Demo.playing = Return tt wd /\
    destroyed (self (reported (invoke (Bound 5 m_processFrame)) wd)) =
      Some true /\
    armed (reported (invoke (Bound 5 m_processFrame)) wd) /\
    blits (canvasEl (reported (invoke (Bound 5 m_processFrame)) wd)) =
      mkBlit (currentFrame (videoEl Demo.playing)) 0 0 PostProcessor.the_filter
      :: blits (canvasEl Demo.playing) /\
    blits (canvasEl (deliver_all (map FramePresented [7; 8])
                       (reported (invoke (Bound 5 m_processFrame)) wd))) =
      rev (map (fun f => mkBlit f 0 0 PostProcessor.the_filter) [7; 8])
      ++ mkBlit (currentFrame (videoEl Demo.playing)) 0 0
           PostProcessor.the_filter
      :: blits (canvasEl Demo.playing).
Proof.
  apply (stray_call_restarts_the_loop Demo.playing 5 [7; 8]).
  live_by_run Demo.page0 Demo.constructed Demo.history.
Defined.

(** X3.  [destroy ()] works again on a loop restarted that way: called
    after the stray call (and any notifications since), it returns and
    cancels the request now outstanding, because every [processFrame]
    stores the new handle in [this.callback]; no later notification
    blits. *)
Theorem destroy_stops_a_restarted_loop
  (w : World) (k : nat) (ns ms : list Notification) :
  live w ->
  exists wd wz wd',
    PostProcessor.destroy w = Return tt wd /\
    wz = deliver_all ns (reported (invoke (Bound k m_processFrame)) wd) /\
    PostProcessor.destroy wz = Return tt wd' /\
    frameRequests (videoEl wd') = [] /\
    blits (canvasEl (deliver_all ms wd')) = blits (canvasEl wz) /\
    frameRequests (videoEl (deliver_all ms wd')) = [].
Proof.
  intros Hl. apply running_of_live in Hl.
  destruct (destroy_running w Hl) as (wd & Hd & Hr & _).
  destruct (stray_call_on_retired k wd Hr) as (Hz & _ & _).
  destruct (deliver_all_running ns _ Hz) as (Hz' & _ & _).
  destruct (destroy_running _ Hz') as (wd' & Hd' & Hr' & Hc').
  exists wd, (deliver_all ns (reported (invoke (Bound k m_processFrame)) wd)), wd'.
  split; [exact Hd|]. split; [reflexivity|]. split; [exact Hd'|].
  destruct (deliver_all_retired ms wd' Hr') as [(_ & _ & _ & Hi & _) Hb].
  destruct Hr' as (_ & _ & _ & Hi0 & _).
  split; [exact Hi0|]. split; [|exact Hi].
  rewrite Hb, Hc'. reflexivity.
Qed.

Lemma destroy_stops_a_restarted_loop_witness :
  exists wd wz wd',
    PostProcessor.destroy Demo.playing = Return tt wd /\
    wz = deliver_all [FramePresented 7]
           (reported (invoke (Bound 5 m_processFrame)) wd) /\
    PostProcessor.destroy wz = Return tt wd' /\
    frameRequests (videoEl wd') = [] /\
    blits (canvasEl (deliver_all [FramePresented 8; FramePresented 9] wd')) =
      blits (canvasEl wz) /\
    frameRequests
      (videoEl (deliver_all [FramePresented 8; FramePresented 9] wd')) = [].
Proof.
  apply (destroy_stops_a_restarted_loop Demo.playing 5 [FramePresented 7]
           [FramePresented 8; FramePresented 9]).
  live_by_run Demo.page0 Demo.constructed Demo.history.
Defined.

Lemma deliver_dimensions_bitmap (n : Notification) (w : World) :
  wired w -> subscribed w -> sized w ->
  about_dimensions n = true ->
  bitmap (canvasEl (deliver n w)) = [].
Proof.
  intros Hw Hs Hz Hn. open_world w. open_inv.
  destruct n; try discriminate; reflexivity.
Qed.

Lemma deliver_frame_bitmap (f : Frame) (w : World) :
  running w ->
  bitmap (canvasEl (deliver (FramePresented f) w)) =
    mkBlit f 0 0 PostProcessor.the_filter :: bitmap (canvasEl w).
Proof.
  intros (Hw & Hs & Hz & Ha). open_world w. open_inv. reflexivity.
Qed.

(** X4.  On a live instance a dimensions-changed or metadata-loaded
    notification leaves the canvas blank and makes no blit: [resize ()]
    does not repaint.  The picture comes back with the next presented
    frame, which is then all the bitmap holds. *)
Theorem dimension_change_blanks_until_next_frame
  (w : World) (n : Notification) (f : Frame) :
  live w ->
  about_dimensions n = true ->
  bitmap (canvasEl (deliver n w)) = [] /\
  blits (canvasEl (deliver n w)) = blits (canvasEl w) /\
  bitmap (canvasEl (deliver (FramePresented f) (deliver n w))) =
    [mkBlit f 0 0 PostProcessor.the_filter].
Proof.
  intros Hl Hn. apply running_of_live in Hl.
  destruct (deliver_running n w Hl) as (Hr & _ & Hb).
  pose proof Hl as (Hw & Hs & Hz & _).
  pose proof (deliver_dimensions_bitmap n w Hw Hs Hz Hn) as Hm.
  split; [exact Hm|]. split.
  - rewrite Hb. destruct n; simpl in *; [reflexivity|reflexivity|discriminate].
  - rewrite (deliver_frame_bitmap f _ Hr), Hm. reflexivity.
Qed.

Lemma dimension_change_blanks_until_next_frame_witness :
  bitmap (canvasEl (deliver (DimensionsChanged 1920 1080) Demo.playing)) = [] /\
  blits (canvasEl (deliver (DimensionsChanged 1920 1080) Demo.playing)) =
    blits (canvasEl Demo.playing) /\
  bitmap (canvasEl (deliver (FramePresented 5)
                      (deliver (DimensionsChanged 1920 1080) Demo.playing))) =
    [mkBlit 5 0 0 PostProcessor.the_filter].
Proof.
  apply (dimension_change_blanks_until_next_frame
           Demo.playing (DimensionsChanged 1920 1080) 5).
  - live_by_run Demo.page0 Demo.constructed Demo.history.
  - reflexivity.
Defined.

Lemma deliver_idle_announced (n : Notification) (w : World) :
  wired w -> subscribed w -> announced n (deliver n w).
Proof.
  intros Hw Hs. open_world w. open_inv. destruct n; cbn; auto.
Qed.

(** X5.  [destroy ()] does not stop the canvas from following the video:
    on an instance that was live when [destroy ()] was called, after each
    later dimensions-changed or metadata-loaded notification the canvas
    has the announced width and height, the filter is the program's, and
    the bitmap has been cleared. *)
Theorem canvas_follows_video_after_destroy
  (w : World) (ns : list Notification) :
  live w ->
  Forall2 (fun n st =>
             announced n st /\
             width (canvasEl st) = videoWidth (videoEl st) /\
             height (canvasEl st) = videoHeight (videoEl st) /\
             filter (canvasEl st) = PostProcessor.the_filter /\
             (about_dimensions n = true -> bitmap (canvasEl st) = []))
          ns (worlds_after ns (state_of (PostProcessor.destroy w))).
Proof.
  intros Hl. apply live_steady in Hl.
  destruct (destroy_steady w Hl) as (wd & -> & Hr & _). simpl.
  clear w Hl. revert wd Hr.
  induction ns as [|n ns IH]; intros w Hr; simpl; constructor.
  - destruct (deliver_retired n w Hr) as [(_ & _ & (Hwd & Hht & Hf) & _) _].
    destruct Hr as (Hw & Hs & Hz & _).
    split; [apply deliver_idle_announced; assumption|].
    repeat (split; [assumption|]).
    apply deliver_dimensions_bitmap; assumption.
  - apply IH, deliver_retired, Hr.
Qed.

Lemma canvas_follows_video_after_destroy_witness :
  Forall2 (fun n st =>
             announced n st /\
             width (canvasEl st) = videoWidth (videoEl st) /\
             height (canvasEl st) = videoHeight (videoEl st) /\
             filter (canvasEl st) = PostProcessor.the_filter /\
             (about_dimensions n = true -> bitmap (canvasEl st) = []))
          [MetadataLoaded 320 240; DimensionsChanged 1920 1080]
          (worlds_after [MetadataLoaded 320 240; DimensionsChanged 1920 1080]
                        (state_of (PostProcessor.destroy Demo.playing))).
Proof.
  apply (canvas_follows_video_after_destroy Demo.playing).
  live_by_run Demo.page0 Demo.constructed Demo.history.
Defined.

(** X6.  [processFrame ()] fails without a trace: when the instance lacks
    its context or its video, the call does not throw (the method is
    [async]), it returns a rejected promise, and the world is exactly as
    before: nothing is drawn and no frame request is made, so the loop
    ends there. *)
Theorem processFrame_fails_without_effect (w : World) :
  ctx (self w) <> obj \/ video (self w) <> obj ->
  PostProcessor.processFrame w =
    Return (PostProcessor.rejected TypeError) w.
Proof.
  intros H. open_world w.
  destruct ctx0, video0; try reflexivity; destruct H; congruence.
Qed.

Lemma processFrame_fails_without_effect_witness :
  PostProcessor.processFrame
    (state_of (PostProcessor.new obj obj page_without_2d)) =
    Return (PostProcessor.rejected TypeError)
      (state_of (PostProcessor.new obj obj page_without_2d)).
Proof.
  apply (processFrame_fails_without_effect
           (state_of (PostProcessor.new obj obj page_without_2d))).
  left. vm_compute. discriminate.
Defined.

(** X7.  When the canvas is already bound to a context of another kind,
    [getContext('2d')] gives [null] and construction ends in a [TypeError]
    thrown by the filter assignment of the in-constructor [resize ()]: by
    then both listeners are subscribed and the canvas has the video's size;
    no frame request is ever made.  The listeners stay, so each later
    dimensions-changed notification resizes the canvas again. *)
Theorem construction_without_2d_context (w0 : World) (vw vh : N) :
  pristine w0 ->
  contextMode (canvasEl w0) = mode_other ->
  exists w,
    PostProcessor.new obj obj w0 = Throw TypeError w /\
    ctx (self w) = null /\
    callback (self w) = None /\
    subscribed w /\
    frameRequests (videoEl w) = [] /\
    width (canvasEl w) = videoWidth (videoEl w0) /\
    height (canvasEl w) = videoHeight (videoEl w0) /\
    filter (canvasEl w) = "none" /\
    width (canvasEl (deliver (DimensionsChanged vw vh) w)) = vw /\
    height (canvasEl (deliver (DimensionsChanged vw vh) w)) = vh /\
    frameRequests (videoEl (deliver (DimensionsChanged vw vh) w)) = [].
Proof.
  intros Hp Hm. open_world w0. open_inv.
  eexists. split; [cbv; reflexivity|].
  unfold subscribed. cbn. repeat split; eauto.
Qed.

Lemma construction_without_2d_context_witness :
  exists w,
    PostProcessor.new obj obj page_without_2d = Throw TypeError w /\
    ctx (self w) = null /\
    callback (self w) = None /\
    subscribed w /\
    frameRequests (videoEl w) = [] /\
    width (canvasEl w) = videoWidth (videoEl page_without_2d) /\
    height (canvasEl w) = videoHeight (videoEl page_without_2d) /\
    filter (canvasEl w) = "none" /\
    width (canvasEl (deliver (DimensionsChanged 1280 720) w)) = 1280%N /\
    height (canvasEl (deliver (DimensionsChanged 1280 720) w)) = 720%N /\
    frameRequests (videoEl (deliver (DimensionsChanged 1280 720) w)) = [].
Proof.
  apply (construction_without_2d_context page_without_2d 1280 720).
  - split; reflexivity.
  - reflexivity.
Defined.

Lemma leftover_after_null_canvas (w0 : World) :
  pristine w0 ->
  exists w,
    PostProcessor.new obj null w0 = Throw TypeError w /\
    subscribed w /\ frameRequests (videoEl w) = [].
Proof.
  intros Hp. open_world w0. open_inv.
  eexists. split; [cbv; reflexivity|].
  unfold subscribed. cbn. split; eauto.
Qed.

Lemma new_null_throws (v c : ref) (w0 : World) :
  v = null \/ c = null ->
  exists w,
    PostProcessor.new v c w0 = Throw TypeError w /\
    canvasEl w = canvasEl w0 /\
    frameRequests (videoEl w) = frameRequests (videoEl w0).
Proof.
  intros H. open_world w0.
  assert (Hv : v = obj -> c = null) by (destruct H; congruence).
  destruct v; try (eexists; split; [reflexivity|]; cbn; auto; fail).
  rewrite (Hv eq_refl).
  unfold PostProcessor.new, PostProcessor.constructor, bind, addEventListener.
  cbn.
  eexists. split; [reflexivity|]. cbn.
  repeat match goal with
         | |- context [if ?b then _ else _] => destruct b; cbn
         end; auto.
Qed.



(** X9.  The two subscriptions of the constructor run the same handler: on
    a live instance a metadata-loaded notification does exactly what a
    dimensions-changed notification with the same size does, and when the
    video sends both, one after the other, the second changes nothing. *)
Theorem metadata_and_resize_agree (w : World) (vw vh : N) :
  live w ->
  deliver (MetadataLoaded vw vh) w = deliver (DimensionsChanged vw vh) w /\
  deliver (DimensionsChanged vw vh) (deliver (MetadataLoaded vw vh) w) =
    deliver (MetadataLoaded vw vh) w.
Proof.
  intros Hl. apply running_of_live in Hl.
  destruct Hl as (Hw & Hs & Hz & Ha). open_world w. open_inv.
  split; reflexivity.
Qed.

Lemma metadata_and_resize_agree_witness :
  deliver (MetadataLoaded 1920 1080) Demo.playing =
    deliver (DimensionsChanged 1920 1080) Demo.playing /\
  deliver (DimensionsChanged 1920 1080)
    (deliver (MetadataLoaded 1920 1080) Demo.playing) =
    deliver (MetadataLoaded 1920 1080) Demo.playing.
Proof.
  apply (metadata_and_resize_agree Demo.playing 1920 1080).
  live_by_run Demo.page0 Demo.constructed Demo.history.
Defined.

(** X10.  On a live instance, in any interleaving of notifications the
    blits made are exactly the presented frames, one each and in order:
    changes of size in between neither drop nor repeat a blit, and the
    loop stays armed. *)
Theorem interleaved_notifications_blit_each_frame
  (w : World) (ns : list Notification) :
  live w ->
  blits (canvasEl (deliver_all ns w)) =
    rev (map (fun f => mkBlit f 0 0 PostProcessor.the_filter) (frames_of ns))
    ++ blits (canvasEl w) /\
  List.length (blits (canvasEl (deliver_all ns w))) =
    List.length (frames_of ns) + List.length (blits (canvasEl w)) /\
  armed (deliver_all ns w).
Proof.
  intros Hl. apply running_of_live in Hl.
  destruct (deliver_all_running ns w Hl) as ((_ & _ & _ & Ha) & _ & Hb).
  rewrite painted_all_frames_of in Hb.
  split; [exact Hb|]. split; [|exact Ha].
  rewrite Hb, length_app, length_rev, length_map. reflexivity.
Qed.

Lemma interleaved_notifications_blit_each_frame_witness :
  blits (canvasEl (deliver_all [FramePresented 5; DimensionsChanged 320 240;
                                FramePresented 6] Demo.playing)) =
    rev (map (fun f => mkBlit f 0 0 PostProcessor.the_filter)
             (frames_of [FramePresented 5; DimensionsChanged 320 240;
                         FramePresented 6]))
    ++ blits (canvasEl Demo.playing) /\
  List.length
    (blits (canvasEl (deliver_all [FramePresented 5; DimensionsChanged 320 240;
                                   FramePresented 6] Demo.playing))) =
    List.length (frames_of [FramePresented 5; DimensionsChanged 320 240;
                            FramePresented 6])
    + List.length (blits (canvasEl Demo.playing)) /\
  armed (deliver_all [FramePresented 5; DimensionsChanged 320 240;
                      FramePresented 6] Demo.playing).
Proof.
  apply (interleaved_notifications_blit_each_frame Demo.playing
           [FramePresented 5; DimensionsChanged 320 240; FramePresented 6]).
  live_by_run Demo.page0 Demo.constructed Demo.history.
Defined.

Lemma deliver_half_built (n : Notification) (w : World) :
  canvas (self w) = null -> subscribed w -> idle w ->
  canvas (self (deliver n w)) = null /\ subscribed (deliver n w) /\
  idle (deliver n w) /\ canvasEl (deliver n w) = canvasEl w.
Proof.
  intros Hc Hs Hi. open_world w. open_inv.
  unfold subscribed. destruct n; cbn; repeat split; eauto.
Qed.

Lemma deliver_all_half_built (ns : list Notification) : forall w : World,
  canvas (self w) = null -> subscribed w -> idle w ->
  canvasEl (deliver_all ns w) = canvasEl w /\ idle (deliver_all ns w).
Proof.
  induction ns as [|n ns IH]; intros w Hc Hs Hi; simpl.
  - auto.
  - destruct (deliver_half_built n w Hc Hs Hi) as (Hc' & Hs' & Hi' & He).
    destruct (IH _ Hc' Hs' Hi') as [He' Hi''].
    split; [congruence|assumption].
Qed.

(** X11.  The listeners a construction with a [null] canvas leaves on the
    video are inert: whatever the video notifies afterwards, [resize ()]
    throws at its first statement each time, the canvas of the page is
    never written and no frame request is ever made. *)
Theorem leftover_listeners_are_inert (w0 : World) (ns : list Notification) :
  pristine w0 ->
  exists w,
    PostProcessor.new obj null w0 = Throw TypeError w /\
    subscribed w /\
    canvasEl (deliver_all ns w) = canvasEl w0 /\
    frameRequests (videoEl (deliver_all ns w)) = [].
Proof.
  intros Hp.
  assert (H : exists w,
             PostProcessor.new obj null w0 = Throw TypeError w /\
             canvas (self w) = null /\ subscribed w /\ idle w /\
             canvasEl w = canvasEl w0).
  { open_world w0. open_inv.
    eexists. split; [cbv; reflexivity|]. cbn. repeat split; eauto. }
  destruct H as (w & Hn & Hc & Hs & Hi & He).
  destruct (deliver_all_half_built ns w Hc Hs Hi) as [He' Hi'].
  exists w. split; [exact Hn|]. split; [exact Hs|].
  split; [congruence|exact Hi'].
Qed.

Lemma leftover_listeners_are_inert_witness :
  exists w,
    PostProcessor.new obj null Demo.page0 = Throw TypeError w /\
    subscribed w /\
    canvasEl (deliver_all [DimensionsChanged 1280 720; FramePresented 2] w) =
      canvasEl Demo.page0 /\
    frameRequests
      (videoEl (deliver_all [DimensionsChanged 1280 720; FramePresented 2] w)) =
      [].
Proof.
  apply (leftover_listeners_are_inert Demo.page0
           [DimensionsChanged 1280 720; FramePresented 2]).
  split; reflexivity.
Defined.

Lemma deliver_frames_bitmap (fs : list Frame) : forall w : World,
  running w ->
  bitmap (canvasEl (deliver_all (map FramePresented fs) w)) =
    rev (map (fun f => mkBlit f 0 0 PostProcessor.the_filter) fs)
    ++ bitmap (canvasEl w).
Proof.
  induction fs as [|f fs IH]; intros w Hr; [reflexivity|].
  cbn [map deliver_all rev].
  destruct (deliver_running (FramePresented f) w Hr) as (Hr' & _ & _).
  rewrite (IH _ Hr'), (deliver_frame_bitmap f w Hr), <- app_assoc.
  reflexivity.
Qed.

(** X12.  [processFrame ()] never clears the canvas: on a live instance
    each presented frame is painted over what the bitmap holds, so after a
    run of frames the bitmap holds all of them on top of what was there;
    only a change of dimensions empties it. *)
Theorem frames_paint_over_each_other (w : World) (fs : list Frame) :
  live w ->
  bitmap (canvasEl (deliver_all (map FramePresented fs) w)) =
    rev (map (fun f => mkBlit f 0 0 PostProcessor.the_filter) fs)
    ++ bitmap (canvasEl w).
Proof.
  intros Hl. apply deliver_frames_bitmap, running_of_live, Hl.
Qed.

Lemma frames_paint_over_each_other_witness :
  bitmap (canvasEl (deliver_all (map FramePresented [5; 6]) Demo.playing)) =
    rev (map (fun f => mkBlit f 0 0 PostProcessor.the_filter) [5; 6])
    ++ bitmap (canvasEl Demo.playing).
Proof.
  apply (frames_paint_over_each_other Demo.playing [5; 6]).
  live_by_run Demo.page0 Demo.constructed Demo.history.
Defined.
